(** * expvarmon: the per-service update pipeline of service.go

    A shallow embedding of [NewService], [Service.Update], [guessValue],
    [Service.Value] and [Service.Max], with the JSON document of the jason package as a
    tree, Go's [error] and [interface{}] as options, [float64] as the
    kernel's binary64 floats and the [stacks] map as a [gmap]. *)

From Stdlib Require Import ZArith String Ascii List Bool Floats Lia.
From stdpp Require Import gmap strings pretty.
Import ListNotations.

Local Open Scope string_scope.
Local Set Warnings "-register-all".

(** ** Go's [error] values that reach the service *)

Inductive error : Type :=
| FetchError (msg : string)        (* FetchExpvar: transport or decode failure *)
| KeyNotFoundError (key : string)  (* jason: the path names no key *)
| ErrNotObject
| ErrNotNumber
| ErrNotBool
| ErrNotString
| ErrNotArray
| NumError (lit : string).         (* strconv: syntax or range *)

(** A Go call returning [(T, error)]. *)
Inductive result (A : Type) : Type :=
| Ok (a : A)
| Failed (e : error).
Arguments Ok {A} a.
Arguments Failed {A} e.

Definition succeeded {A} (r : result A) : bool :=
  match r with Ok _ => true | Failed _ => false end.

(** ** 64-bit integers and floats *)

Definition min_int64 : Z := (- 2 ^ 63)%Z.
Definition max_int64 : Z := (2 ^ 63 - 1)%Z.

Definition in_int64 (z : Z) : bool :=
  ((min_int64 <=? z) && (z <=? max_int64))%Z.

(** [float64(n)]: the binary64 nearest to [n], ties to even. *)
Definition float64_of_Z (z : Z) : float :=
  SF2Prim (binary_normalize prec emax z 0 false).

(** [int64(f)]: truncation toward zero.  Go leaves the conversion of a
    value that does not fit (and of NaN) to the platform; amd64 yields
    the smallest int64 there, which is what is written here. *)
Definition int64_of_float64 (f : float) : Z :=
  match Prim2SF f with
  | S754_zero _ => 0%Z
  | S754_finite sign m e =>
      let mag := if (0 <=? e)%Z then (Z.pos m * 2 ^ e)%Z
                 else (Z.pos m / 2 ^ (- e))%Z in
      let z := if sign then (- mag)%Z else mag in
      if in_int64 z then z else min_int64
  | S754_infinity _ | S754_nan => min_int64
  end.

(** ** The jason package: a decoded JSON document

    The decoder keeps numbers as literals ([json.Number]) and parses
    them on demand, so one literal can answer both [Int64] and
    [Float64]. *)

Module jason.

(** A number literal: either a plain integer literal, or one with a
    fraction or exponent, given by the float [strconv.ParseFloat]
    reads from it. *)
Inductive Number : Type :=
| IntLit (z : Z)
| FracLit (f : float).

Inductive Value : Type :=
| Null
| Bool (b : bool)
| Num (n : Number)
| Str (s : string)
| Arr (vs : list Value)
| Obj (fields : list (string * Value)).

Definition ParseInt (n : Number) : result Z :=
  match n with
  | IntLit z => if in_int64 z then Ok z else Failed (NumError "value out of range")
  | FracLit _ => Failed (NumError "invalid syntax")
  end.

Definition ParseFloat (n : Number) : result float :=
  let f := match n with IntLit z => float64_of_Z z | FracLit f => f end in
  if is_finite f then Ok f else Failed (NumError "value out of range").

Definition Int64 (v : Value) : result Z :=
  match v with
  | Num n => ParseInt n
  | _ => Failed ErrNotNumber
  end.

Definition Float64 (v : Value) : result float :=
  match v with
  | Num n => ParseFloat n
  | _ => Failed ErrNotNumber
  end.

Definition Boolean (v : Value) : result bool :=
  match v with
  | Bool b => Ok b
  | _ => Failed ErrNotBool
  end.

Definition String (v : Value) : result string :=
  match v with
  | Str s => Ok s
  | _ => Failed ErrNotString
  end.

Definition Array (v : Value) : result (list Value) :=
  match v with
  | Arr vs => Ok vs
  | _ => Failed ErrNotArray
  end.

Fixpoint field (key : string) (fields : list (string * Value)) : option Value :=
  match fields with
  | [] => None
  | (k, v) :: rest => if String.eqb k key then Some v else field key rest
  end.

(** One step down the document: the child of an object at [key]. *)
Definition get (v : Value) (key : string) : result Value :=
  match v with
  | Obj fields =>
      match field key fields with
      | Some child => Ok child
      | None => Failed (KeyNotFoundError key)
      end
  | _ => Failed ErrNotObject
  end.

Fixpoint getPath (v : Value) (keys : list string) : result Value :=
  match keys with
  | [] => Ok v
  | key :: rest =>
      match get v key with
      | Ok child => getPath child rest
      | Failed e => Failed e
      end
  end.

Definition GetValue (doc : Value) (keys : list string) : result Value :=
  getPath doc keys.

Definition GetInt64 (doc : Value) (keys : list string) : result Z :=
  match getPath doc keys with
  | Ok child => Int64 child
  | Failed e => Failed e
  end.

Fixpoint strings_of (vs : list Value) : result (list string) :=
  match vs with
  | [] => Ok []
  | v :: rest =>
      match String v with
      | Ok s =>
          match strings_of rest with
          | Ok ss => Ok (s :: ss)
          | Failed e => Failed e
          end
      | Failed e => Failed e
      end
  end.

Definition GetStringArray (doc : Value) (keys : list string) : result (list string) :=
  match getPath doc keys with
  | Ok child =>
      match Array child with
      | Ok vs => strings_of vs
      | Failed e => Failed e
      end
  | Failed e => Failed e
  end.

End jason.

(** The document handed back by [FetchExpvar]. *)
Definition Expvar : Type := jason.Value.

(** ** Values held in an [interface{}]

    [guessValue] returns an [interface{}]; its dynamic value is one of
    these, and [None] stands for the nil interface. *)
Inductive scalar : Type :=
| VInt (n : Z)         (* int: the untyped constant 0 of the empty array *)
| VInt64 (n : Z)
| VFloat64 (f : float)
| VBool (b : bool)
| VString (s : string).

Definition is_integer (v : scalar) : bool :=
  match v with VInt _ | VInt64 _ => true | _ => false end.

Definition is_float (v : scalar) : bool :=
  match v with VFloat64 _ => true | _ => false end.

(** The numeric reading of one array element: an integer first, a float
    second. *)
Definition numeric (v : jason.Value) : option float :=
  match jason.Int64 v with
  | Ok n => Some (float64_of_Z n)
  | Failed _ =>
      match jason.Float64 v with
      | Ok f => Some f
      | Failed _ => None
      end
  end.

Definition sum_floats (xs : list float) : float :=
  fold_left PrimFloat.add xs PrimFloat.zero.

Definition mean (xs : list float) : float :=
  PrimFloat.div (sum_floats xs) (float64_of_Z (Z.of_nat (length xs))).

(** Modelled from the spec: averageJason (average.go) is not among the
    sources.  Section 4.3: the arithmetic mean of the elements' numeric
    readings; an element without one has no part in the mean. *)
Definition averageJason (array : list jason.Value) : float :=
  mean (omap numeric array).

(** guessValue (service.go, lines 143-172). *)
Definition guessValue (v : jason.Value) : option scalar :=
  match jason.Int64 v with
  | Ok n => Some (VInt64 n)
  | Failed _ =>
  match jason.Float64 v with
  | Ok f => Some (VFloat64 f)
  | Failed _ =>
  match jason.Boolean v with
  | Ok b => Some (VBool b)
  | Failed _ =>
  match jason.String v with
  | Ok s => Some (VString s)
  | Failed _ =>
  match jason.Array v with
  | Ok arr =>
      match arr with
      | [] => Some (VInt 0)
      | first :: _ =>
          let avg := averageJason arr in
          match jason.Int64 first with
          | Ok _ => Some (VInt64 (int64_of_float64 avg))
          | Failed _ => Some (VFloat64 avg)
          end
      end
  | Failed _ => None
  end end end end end.


(** ** The collaborators of service.go

    [VarName] is a Go string type; its methods, the formatter, the
    command-name helper, the -serialize flag and the stack capacity live
    in files that are not part of these sources.  The service is written
    against them as an interface. *)

Abbreviation VarName := string (only parsing).

Class Collaborators : Type := {
  VarKind : Type;
  ToSlice : VarName -> list string;       (* VarName.ToSlice *)
  Kind : VarName -> VarKind;              (* VarName.Kind *)
  Format : scalar -> VarKind -> string;   (* Format(v, kind) *)
  BaseCommand : list string -> string;    (* BaseCommand(cmdline) *)
  serialize : bool;                       (* the -serialize flag *)
  DefaultSize : nat                       (* capacity of every Stack *)
}.

(** ** Stack: the bounded history of one variable *)

(** Modelled from the spec: the Stack type (stack.go) is not among the
    sources.  Section 4.2: the recorded values, oldest first, the
    capacity, and the running maximum kept beside them. *)
Record Stack : Type := {
  Values : list (option scalar);
  Len : nat;
  Max : option scalar
}.

Definition is_numeric (v : scalar) : bool := is_integer v || is_float v.

Definition as_Z (v : scalar) : option Z :=
  match v with VInt n | VInt64 n => Some n | _ => None end.

Definition as_float (v : scalar) : option float :=
  match v with
  | VInt n | VInt64 n => Some (float64_of_Z n)
  | VFloat64 f => Some f
  | _ => None
  end.

(** [a > b] on numeric values: integers as integers, otherwise as
    floats. *)
Definition scalar_gtb (a b : scalar) : bool :=
  match as_Z a, as_Z b with
  | Some x, Some y => (y <? x)%Z
  | _, _ =>
      match as_float a, as_float b with
      | Some x, Some y => PrimFloat.ltb y x
      | _, _ => false
      end
  end.

Definition new_max (v : option scalar) (mx : option scalar) : option scalar :=
  match v with
  | Some x =>
      if is_numeric x then
        match mx with
        | None => Some x
        | Some m => if scalar_gtb x m then Some x else mx
        end
      else mx
  | None => mx
  end.

(** Modelled from the spec: Stack.Push (stack.go) is not among the
    sources.  Section 4.2: append to the tail; past the capacity the
    head is evicted; a numeric value above the running maximum (or the
    first one) becomes the maximum.  [None] is the Absent push. *)
Definition Push (st : Stack) (v : option scalar) : Stack :=
  let vs := (Values st ++ [v])%list in
  {| Values := if (Len st <? length vs)%nat then tail vs else vs;
     Len := Len st;
     Max := new_max v (Max st) |}.

(** Modelled from the spec: Stack.Front (stack.go) is not among the
    sources.  Section 4.2: the most recently pushed value, nil for a
    stack never pushed to. *)
Definition Front (st : Stack) : option scalar :=
  List.last (Values st) None.

(** ** Service *)

Record url_URL : Type := { Host : string }.

Record Service : Type := {
  URL : url_URL;
  Name : string;
  Cmdline : string;
  vars : list VarName;
  stacks : gmap VarName Stack;
  Err : option error;
  Restarted : bool;
  UptimeCounter : Z;
  (* the records handed to the csv writer, oldest first; the file [f]
     only backs the writer *)
  w : list (list string)
}.

(** What one tick receives from outside: the pair [FetchExpvar]
    returns, and the clock reading used for the csv row. *)
Record Tick : Type := {
  fetched : Expvar;
  fetch_err : option error;
  now : string
}.

(** Modelled from the spec: FetchExpvar (expvar.go) is not among the
    sources.  Section 6: it returns a parsed document or an error; the
    document next to an error holds nothing, so that every read of it
    fails. *)
Definition fetch_failed (e : error) (tm : string) : Tick :=
  {| fetched := jason.Null; fetch_err := Some e; now := tm |}.

Definition fetch_ok (doc : Expvar) (tm : string) : Tick :=
  {| fetched := doc; fetch_err := None; now := tm |}.

Section Service.
Context `{Collab : Collaborators}.

(** Modelled from the spec: NewStack (stack.go) is not among the
    sources.  Section 4.2: an empty buffer of the process-wide
    capacity. *)
Definition NewStack : Stack :=
  {| Values := []; Len := DefaultSize; Max := None |}.

(** uptimeCounter (service.go, line 19). *)
Definition uptimeCounter : list string := ToSlice "memstats.PauseTotalNs".

(** NewService (service.go, lines 42-74).  [create_err] is what
    [os.Create] answers when the flag asks for a file; the function
    panics on an error there, which is [None]. *)
Definition NewService (url : url_URL) (vs : list VarName)
    (create_err : option error) : option Service :=
  let values := fold_left (fun m name => <[name := NewStack]> m) vs ∅ in
  let s := {| URL := url; Name := Host url; Cmdline := "";
              vars := vs; stacks := values;
              Err := None; Restarted := false; UptimeCounter := 0%Z;
              w := [] |} in
  if serialize then
    match create_err with
    | Some _ => None
    | None =>
        Some {| URL := URL s; Name := Name s; Cmdline := Cmdline s;
                vars := vars s; stacks := stacks s;
                Err := Err s; Restarted := Restarted s;
                UptimeCounter := UptimeCounter s;
                w := ["time" :: vs] |}
    end
  else Some s.

(** Value (service.go, lines 177-192). *)
Definition Value (s : Service) (name : VarName) : string :=
  match Err s with
  | Some _ => "N/A"
  | None =>
      match stacks s !! name with
      | None => "N/A"
      | Some val =>
          match Front val with
          | None => "N/A"
          | Some v => Format v (Kind name)
          end
      end
  end.

(** Max (service.go, lines 206-218): the formatted maximum of the
    variable, or nil.  Named after its receiver, [Max] being the field
    of [Stack]. *)
Definition Service_Max (s : Service) (name : VarName) : option string :=
  match stacks s !! name with
  | None => None
  | Some val =>
      match Max val with
      | None => None
      | Some v => Some (Format v (Kind name))
      end
  end.

(** Update, lines 88-93: the restart check on the fetch outcome. *)
Definition check_restart (err : option error) (s : Service) : Service :=
  {| URL := URL s; Name := Name s; Cmdline := Cmdline s;
     vars := vars s; stacks := stacks s;
     Err := err;
     Restarted :=
       match Err s, err with
       | Some _, None => true
       | _, _ => Restarted s
       end;
     UptimeCounter := UptimeCounter s; w := w s |}.

(** Update, lines 97-105: the uptime counter. *)
Definition update_uptime (expvar : Expvar) (s : Service) : Service :=
  match jason.GetInt64 expvar uptimeCounter with
  | Failed err =>
      {| URL := URL s; Name := Name s; Cmdline := Cmdline s;
         vars := vars s; stacks := stacks s;
         Err := Some err;
         Restarted := Restarted s;
         UptimeCounter := UptimeCounter s; w := w s |}
  | Ok c =>
      {| URL := URL s; Name := Name s; Cmdline := Cmdline s;
         vars := vars s; stacks := stacks s;
         Err := Err s;
         Restarted := if (UptimeCounter s >? c)%Z then true else Restarted s;
         UptimeCounter := c; w := w s |}
  end.

(** Update, lines 108-116: command line and name. *)
Definition update_cmdline (expvar : Expvar) (s : Service) : Service :=
  if (String.length (Cmdline s) =? 0)%nat then
    match jason.GetStringArray expvar ["cmdline"] with
    | Failed err =>
        {| URL := URL s; Name := Name s; Cmdline := Cmdline s;
           vars := vars s; stacks := stacks s;
           Err := Some err;
           Restarted := Restarted s;
           UptimeCounter := UptimeCounter s; w := w s |}
    | Ok cmdline =>
        {| URL := URL s; Name := BaseCommand cmdline;
           Cmdline := String.concat " " cmdline;
           vars := vars s; stacks := stacks s;
           Err := Err s;
           Restarted := Restarted s;
           UptimeCounter := UptimeCounter s; w := w s |}
    end
  else s.

(** Update, lines 120-128: the body of the loop over the stacks. *)
Definition push_var (expvar : Expvar) (name : VarName) (stack : Stack) : Stack :=
  match jason.GetValue expvar (ToSlice name) with
  | Failed _ => Push stack None
  | Ok raw =>
      match guessValue raw with
      | Some v => Push stack (Some v)
      | None => stack
      end
  end.

(** Update, lines 119-129: every stack of the map, each under its own
    name; the keys are distinct, so the order of the range is of no
    consequence. *)
Definition update_stacks (expvar : Expvar) (s : Service) : Service :=
  {| URL := URL s; Name := Name s; Cmdline := Cmdline s;
     vars := vars s;
     stacks := map_imap (fun name stack => Some (push_var expvar name stack)) (stacks s);
     Err := Err s; Restarted := Restarted s;
     UptimeCounter := UptimeCounter s; w := w s |}.

(** Update, lines 131-140: one csv record per tick under -serialize. *)
Definition write_row (tm : string) (s : Service) : Service :=
  if serialize then
    {| URL := URL s; Name := Name s; Cmdline := Cmdline s;
       vars := vars s; stacks := stacks s;
       Err := Err s; Restarted := Restarted s;
       UptimeCounter := UptimeCounter s;
       w := (w s ++ [tm :: map (Value s) (vars s)])%list |}
  else s.

(** Update (service.go, lines 86-141).  The wait group only tells the
    caller that the tick is over. *)
Definition Update (s : Service) (t : Tick) : Service :=
  let expvar := fetched t in
  let s1 := check_restart (fetch_err t) s in
  let s2 := update_uptime expvar s1 in
  let s3 := update_cmdline expvar s2 in
  let s4 := update_stacks expvar s3 in
  write_row (now t) s4.

(** A run of ticks, oldest first. *)
Definition Updates (s : Service) (ts : list Tick) : Service :=
  fold_left Update ts s.

(** Update, lines 88-129: the state a tick hands to the csv step. *)
Definition before_row (s : Service) (t : Tick) : Service :=
  update_stacks (fetched t)
    (update_cmdline (fetched t)
       (update_uptime (fetched t) (check_restart (fetch_err t) s))).

(** A run in which every fetch succeeds, the command line is readable
    and the uptime counter, starting from [c], never goes down. *)
Fixpoint steady (c : Z) (ts : list Tick) : bool :=
  match ts with
  | [] => true
  | t :: rest =>
      match fetch_err t,
            jason.GetInt64 (fetched t) uptimeCounter,
            jason.GetStringArray (fetched t) ["cmdline"] with
      | None, Ok c', Ok _ => (c <=? c')%Z && steady c' rest
      | _, _, _ => false
      end
  end.

End Service.

(** ** The normalizer as the specification words it

    Section 4.3 of the specification: five attempts in a fixed order,
    the first success wins. *)

Definition try_int64 (v : jason.Value) : option scalar :=
  match jason.Int64 v with Ok n => Some (VInt64 n) | Failed _ => None end.

Definition try_float64 (v : jason.Value) : option scalar :=
  match jason.Float64 v with Ok f => Some (VFloat64 f) | Failed _ => None end.

Definition try_boolean (v : jason.Value) : option scalar :=
  match jason.Boolean v with Ok b => Some (VBool b) | Failed _ => None end.

Definition try_string (v : jason.Value) : option scalar :=
  match jason.String v with Ok s => Some (VString s) | Failed _ => None end.

(** The array rule: zero for the empty array, otherwise the mean, cut to
    an integer when the first element reads as one. *)
Definition array_rule (arr : list jason.Value) : scalar :=
  match arr with
  | [] => VInt 0
  | first :: _ =>
      if succeeded (jason.Int64 first)
      then VInt64 (int64_of_float64 (averageJason arr))
      else VFloat64 (averageJason arr)
  end.

Definition try_array (v : jason.Value) : option scalar :=
  match jason.Array v with Ok arr => Some (array_rule arr) | Failed _ => None end.

Definition attempts : list (jason.Value -> option scalar) :=
  [try_int64; try_float64; try_boolean; try_string; try_array].

Fixpoint first_success (fs : list (jason.Value -> option scalar))
    (v : jason.Value) : option scalar :=
  match fs with
  | [] => None
  | f :: rest =>
      match f v with
      | Some x => Some x
      | None => first_success rest v
      end
  end.

Definition Normalize (v : jason.Value) : option scalar :=
  first_success attempts v.

(** ** Exact values, to measure the float arithmetic against *)



(** ** A concrete setting for the examples

    Names split at the dots, values rendered plainly, the command name
    taken as the last path segment of the first token, no csv file,
    room for three values. *)

Fixpoint split_on (sep : ascii) (s acc : string) : list string :=
  match s with
  | EmptyString => [acc]
  | String c rest =>
      if Ascii.eqb c sep then acc :: split_on sep rest ""
      else split_on sep rest (acc +:+ String c "")
  end.

Definition render (v : scalar) : string :=
  match v with
  | VInt n | VInt64 n => pretty n
  | VFloat64 _ => "float"
  | VBool b => if b then "true" else "false"
  | VString s => s
  end.

Definition plain : Collaborators :=
  {| VarKind := unit;
     ToSlice := fun name => split_on "." name "";
     Kind := fun _ => tt;
     Format := fun v _ => render v;
     BaseCommand := fun cmdline => List.last (split_on "/" (hd "" cmdline) "") "";
     serialize := false;
     DefaultSize := 3 |}.

Definition int (z : Z) : jason.Value := jason.Num (jason.IntLit z).

(** A debug document with the uptime counter at [pause], the command
    line [cmd] and eight goroutines. *)
Definition app_doc (pause : Z) (cmd : list string) : Expvar :=
  jason.Obj
    [("cmdline", jason.Arr (map jason.Str cmd));
     ("memstats", jason.Obj [("PauseTotalNs", int pause); ("Alloc", int 4096)]);
     ("Goroutines", int 8);
     ("Build", jason.Obj [("tag", jason.Str "v1")])].

(** The same process without its memstats entry. *)
Definition bare_doc (cmd : list string) : Expvar :=
  jason.Obj
    [("cmdline", jason.Arr (map jason.Str cmd));
     ("Goroutines", int 8);
     ("Build", jason.Obj [("tag", jason.Str "v1")])].

Definition app_cmd : list string := ["/usr/local/bin/app"; "-v"].

Definition tick (pause : Z) : Tick := fetch_ok (app_doc pause app_cmd) "12:00:00".

Definition refused : Tick := fetch_failed (FetchError "connection refused") "12:00:05".

(** The same address answering with another command line. *)
Definition moved : Tick :=
  fetch_ok (app_doc 150 ["/opt/other/tool"; "--flag"]) "12:00:10".

(** A fetch that succeeds on the document without memstats. *)
Definition bare : Tick := fetch_ok (bare_doc app_cmd) "12:00:15".

(** A monitor of three variables, as [NewService] builds it. *)
Definition monitor : Service :=
  {| URL := {| Host := "localhost:1234" |};
     Name := "localhost:1234";
     Cmdline := "";
     vars := ["Goroutines"; "memstats.Alloc"; "Build"];
     stacks := {[ "Goroutines" := @NewStack plain;
                  "memstats.Alloc" := @NewStack plain;
                  "Build" := @NewStack plain ]};
     Err := None;
     Restarted := false;
     UptimeCounter := 0%Z;
     w := [] |}.

(** The same setting with the csv export switched on. *)
Definition logged : Collaborators :=
  {| VarKind := unit;
     ToSlice := fun name => split_on "." name "";
     Kind := fun _ => tt;
     Format := fun v _ => render v;
     BaseCommand := fun cmdline => List.last (split_on "/" (hd "" cmdline) "") "";
     serialize := true;
     DefaultSize := 3 |}.

(** The monitor with the export on, as [NewService] builds it: the
    header is written. *)
Definition journal : Service :=
  {| URL := {| Host := "localhost:1234" |};
     Name := "localhost:1234";
     Cmdline := "";
     vars := ["Goroutines"; "memstats.Alloc"; "Build"];
     stacks := {[ "Goroutines" := @NewStack logged;
                  "memstats.Alloc" := @NewStack logged;
                  "Build" := @NewStack logged ]};
     Err := None;
     Restarted := false;
     UptimeCounter := 0%Z;
     w := [["time"; "Goroutines"; "memstats.Alloc"; "Build"]] |}.

(** A process that reports a single empty token as its command line. *)
Definition anonymous : Tick := fetch_ok (app_doc 10 [""]) "12:00:20".

(** * Properties *)

(** ** How the steps of a tick touch the fields *)

Section Steps.
Context `{Collab : Collaborators}.

Lemma check_restart_Restarted (err : option error) (s : Service) :
  Restarted (check_restart err s)
  = (match Err s, err with Some _, None => true | _, _ => false end) || Restarted s.
Proof.
  unfold check_restart; cbn.
  destruct (Err s), err; reflexivity.
Qed.

Lemma update_uptime_Restarted (expvar : Expvar) (s : Service) :
  Restarted (update_uptime expvar s)
  = match jason.GetInt64 expvar uptimeCounter with
    | Ok c => (UptimeCounter s >? c)%Z || Restarted s
    | Failed _ => Restarted s
    end.
Proof.
  unfold update_uptime.
  destruct (jason.GetInt64 expvar uptimeCounter) as [c|e]; cbn; [|reflexivity].
  destruct (UptimeCounter s >? c)%Z; reflexivity.
Qed.

Lemma update_cmdline_frame (expvar : Expvar) (s : Service) :
  Restarted (update_cmdline expvar s) = Restarted s
  /\ UptimeCounter (update_cmdline expvar s) = UptimeCounter s
  /\ stacks (update_cmdline expvar s) = stacks s
  /\ vars (update_cmdline expvar s) = vars s
  /\ w (update_cmdline expvar s) = w s.
Proof.
  unfold update_cmdline.
  destruct (String.length (Cmdline s) =? 0)%nat; [|tauto].
  destruct (jason.GetStringArray expvar ["cmdline"]); cbn; tauto.
Qed.

Lemma write_row_frame (tm : string) (s : Service) :
  Restarted (write_row tm s) = Restarted s
  /\ UptimeCounter (write_row tm s) = UptimeCounter s
  /\ stacks (write_row tm s) = stacks s
  /\ Err (write_row tm s) = Err s
  /\ Cmdline (write_row tm s) = Cmdline s
  /\ Name (write_row tm s) = Name s.
Proof.
  unfold write_row. destruct serialize; cbn; tauto.
Qed.

Lemma Update_Restarted (s : Service) (t : Tick) :
  Restarted (Update s t)
  = Restarted (update_uptime (fetched t) (check_restart (fetch_err t) s)).
Proof.
  unfold Update; cbn zeta.
  rewrite (proj1 (write_row_frame _ _)); cbn.
  apply update_cmdline_frame.
Qed.

Lemma Update_UptimeCounter (s : Service) (t : Tick) :
  UptimeCounter (Update s t)
  = UptimeCounter (update_uptime (fetched t) (check_restart (fetch_err t) s)).
Proof.
  unfold Update; cbn zeta.
  rewrite (proj1 (proj2 (write_row_frame _ _))); cbn.
  apply update_cmdline_frame.
Qed.

Lemma Update_Err (s : Service) (t : Tick) :
  Err (Update s t)
  = Err (update_cmdline (fetched t)
           (update_uptime (fetched t) (check_restart (fetch_err t) s))).
Proof.
  unfold Update; cbn zeta.
  destruct (write_row_frame (now t)
    (update_stacks (fetched t) (update_cmdline (fetched t)
       (update_uptime (fetched t) (check_restart (fetch_err t) s)))))
    as (_ & _ & _ & -> & _).
  reflexivity.
Qed.

Lemma Update_stacks (s : Service) (t : Tick) :
  stacks (Update s t)
  = map_imap (fun name stack => Some (push_var (fetched t) name stack)) (stacks s).
Proof.
  unfold Update; cbn zeta.
  destruct (write_row_frame (now t)
    (update_stacks (fetched t) (update_cmdline (fetched t)
       (update_uptime (fetched t) (check_restart (fetch_err t) s)))))
    as (_ & _ & -> & _).
  cbn.
  destruct (update_cmdline_frame (fetched t)
    (update_uptime (fetched t) (check_restart (fetch_err t) s)))
    as (_ & _ & -> & _).
  unfold update_uptime.
  destruct (jason.GetInt64 (fetched t) uptimeCounter); reflexivity.
Qed.

(** The flag only ever goes up within a tick. *)
Lemma Update_Restarted_mono (s : Service) (t : Tick) :
  Restarted s = true -> Restarted (Update s t) = true.
Proof.
  intros Hs.
  rewrite Update_Restarted, update_uptime_Restarted, check_restart_Restarted, Hs.
  rewrite orb_true_r.
  destruct (jason.GetInt64 (fetched t) uptimeCounter); [apply orb_true_r | reflexivity].
Qed.

(** No path of a document that holds nothing leads to an integer. *)
Lemma GetInt64_empty (keys : list string) :
  succeeded (jason.GetInt64 jason.Null keys) = false.
Proof.
  unfold jason.GetInt64.
  destruct keys as [|key rest]; reflexivity.
Qed.

(** A tick whose fetch failed leaves the flag where it was. *)
Lemma failed_fetch_Restarted (s : Service) (e : error) (tm : string) :
  Restarted (Update s (fetch_failed e tm)) = Restarted s.
Proof.
  rewrite Update_Restarted, update_uptime_Restarted, check_restart_Restarted; cbn.
  pose proof (GetInt64_empty uptimeCounter) as Hempty.
  destruct (jason.GetInt64 jason.Null uptimeCounter); [discriminate|].
  destruct (Err s); reflexivity.
Qed.

(** A successful fetch after a tick that ended in error raises the flag. *)
Lemma recovery_Restarted (s : Service) (t : Tick) (e : error) :
  Err s = Some e -> fetch_err t = None -> Restarted (Update s t) = true.
Proof.
  intros He Ht.
  rewrite Update_Restarted, update_uptime_Restarted, check_restart_Restarted, He, Ht.
  destruct (jason.GetInt64 (fetched t) uptimeCounter); [apply orb_true_r | reflexivity].
Qed.

End Steps.

(** ** Restart detection *)

Section Restart.
Context `{Collab : Collaborators}.

(** C1, as the code has it: over two consecutive ticks, a first tick
    that leaves [Err] set followed by a tick whose fetch succeeds ends
    with [Restarted] true, whatever the counter reads; a first tick that
    leaves [Err] nil followed by a tick whose fetch fails leaves
    [Restarted] as the first tick left it. *)
Theorem Restarted_over_two_ticks (s : Service) (t1 : Tick) :
  (forall e t2,
      Err (Update s t1) = Some e -> fetch_err t2 = None ->
      Restarted (Update (Update s t1) t2) = true)
  /\ (forall e tm,
      Err (Update s t1) = None ->
      Restarted (Update (Update s t1) (fetch_failed e tm))
      = Restarted (Update s t1)).
Proof.
  split.
  - intros e t2 He Ht2. exact (recovery_Restarted _ _ e He Ht2).
  - intros e tm _. apply failed_fetch_Restarted.
Qed.

(** C2: once [Restarted] is true it stays true through every later
    tick, whatever the fetch returns and whatever the counter reads. *)
Theorem Restarted_sticky (s : Service) (ts : list Tick) :
  Restarted s = true -> Restarted (Updates s ts) = true.
Proof.
  unfold Updates.
  revert s.
  induction ts as [|t ts IH]; intros s Hs; cbn.
  - exact Hs.
  - apply IH, Update_Restarted_mono, Hs.
Qed.

(** C3: a tick that reads the uptime counter as [c] stores [c], on the
    first read as on any other, and its counter step raises [Restarted]
    exactly when the stored counter was greater than [c], leaving it
    alone otherwise. *)
Theorem uptime_counter_read (s : Service) (t : Tick) (c : Z) :
  jason.GetInt64 (fetched t) uptimeCounter = Ok c ->
  let before := check_restart (fetch_err t) s in
  UptimeCounter before = UptimeCounter s
  /\ UptimeCounter (update_uptime (fetched t) before) = c
  /\ Restarted (update_uptime (fetched t) before)
     = (if (UptimeCounter s >? c)%Z then true else Restarted before)
  /\ UptimeCounter (Update s t) = c
  /\ Restarted (Update s t)
     = (if (UptimeCounter s >? c)%Z then true else Restarted before).
Proof.
  intros Hc before.
  assert (Hstep : Restarted (update_uptime (fetched t) before)
                  = (if (UptimeCounter s >? c)%Z then true else Restarted before)).
  { rewrite update_uptime_Restarted, Hc. reflexivity. }
  assert (Hcnt : UptimeCounter (update_uptime (fetched t) before) = c).
  { unfold update_uptime. rewrite Hc. reflexivity. }
  repeat split.
  - exact Hcnt.
  - exact Hstep.
  - rewrite Update_UptimeCounter. exact Hcnt.
  - rewrite Update_Restarted. exact Hstep.
Qed.

(** C9: the check on the fetch outcome raises [Restarted] on recovery,
    that is when [Err] was set and the fetch succeeds, and in no other
    case; in particular a failing fetch after a healthy tick does not
    raise it there, and a tick whose fetch failed ends with the flag it
    started with. *)
Theorem restart_check_is_recovery (s : Service) (t : Tick) :
  (forall e, Err s = Some e -> fetch_err t = None ->
             Restarted (Update s t) = true)
  /\ (forall e, Err s = None -> fetch_err t = Some e ->
                Restarted (check_restart (fetch_err t) s) = Restarted s)
  /\ (Restarted (check_restart (fetch_err t) s) = true <->
      Restarted s = true \/ (is_Some (Err s) /\ fetch_err t = None))
  /\ (forall e tm, Restarted (Update s (fetch_failed e tm)) = Restarted s).
Proof.
  split; [|split; [|split]].
  - intros e. apply recovery_Restarted.
  - intros e Hs Ht. rewrite check_restart_Restarted, Hs. reflexivity.
  - rewrite check_restart_Restarted.
    destruct (Err s) as [e0|], (fetch_err t) as [e1|], (Restarted s); cbn;
      split; intros H;
      try reflexivity; try discriminate; try tauto;
      try (destruct H as [H | [H1 H2]];
           [discriminate | try discriminate; destruct H1 as [x Hx]; discriminate]).
    right; split; [eexists; reflexivity | reflexivity].
  - intros e tm. apply failed_fetch_Restarted.
Qed.

End Restart.

(** ** The normalizer *)


Lemma guessValue_Arr (arr : list jason.Value) :
  guessValue (jason.Arr arr) = Some (array_rule arr).
Proof.
  destruct arr as [|first rest]; cbn; [reflexivity|].
  destruct (jason.Int64 first); reflexivity.
Qed.

(** C4: [guessValue] is the first success among the five readings taken
    in the order integer, float, boolean, string, array, and it is nil
    exactly when all five fail. *)
Theorem guessValue_first_success (v : jason.Value) :
  guessValue v = Normalize v
  /\ (guessValue v = None <->
      succeeded (jason.Int64 v) = false
      /\ succeeded (jason.Float64 v) = false
      /\ succeeded (jason.Boolean v) = false
      /\ succeeded (jason.String v) = false
      /\ succeeded (jason.Array v) = false).
Proof.
  split.
  - unfold Normalize, attempts, first_success,
      try_int64, try_float64, try_boolean, try_string, try_array.
    destruct v as [|b|n|s|vs|fields]; try reflexivity.
    + unfold guessValue; cbn.
      destruct (jason.ParseInt n), (jason.ParseFloat n); reflexivity.
    + rewrite guessValue_Arr. reflexivity.
  - unfold guessValue.
    destruct v as [|b|n|s|vs|fields]; cbn;
      try (split; [intros; repeat split | reflexivity]);
      try (split; [discriminate | intros (_ & _ & ? & ? & ?); discriminate]).
    + destruct (jason.ParseInt n), (jason.ParseFloat n); cbn;
        (split; [intros H; try discriminate; repeat split
                | intros (? & ? & _); try discriminate; reflexivity]).
    + split; [|intros (_ & _ & _ & _ & ?); discriminate].
      destruct vs as [|first rest]; [discriminate|].
      destruct (jason.Int64 first); discriminate.
Qed.





(** ** Name resolution, per-variable pushes and the displayed value *)

Lemma length_zero_empty (s : string) :
  (String.length s =? 0)%nat = true <-> s = "".
Proof.
  destruct s; cbn; split; intros H; (reflexivity || discriminate).
Qed.

Lemma last_after_eviction (evict : bool) (l : list (option scalar)) :
  List.last (if evict then tail (l ++ [None]) else l ++ [None])%list None = None.
Proof.
  destruct evict; [|apply last_last].
  destruct l as [|x l]; cbn [app tail]; [reflexivity | apply last_last].
Qed.

Lemma Front_Push_nil (st : Stack) : Front (Push st None) = None.
Proof.
  unfold Front, Push; cbn [Values].
  apply last_after_eviction.
Qed.

Section Tick.
Context `{Collab : Collaborators}.

Lemma update_cmdline_resolved (expvar : Expvar) (s : Service) :
  Cmdline s <> "" -> update_cmdline expvar s = s.
Proof.
  intros Hne. unfold update_cmdline.
  destruct (String.length (Cmdline s) =? 0)%nat eqn:Hlen; [|reflexivity].
  apply length_zero_empty in Hlen. contradiction.
Qed.

Lemma uptime_keeps_names (expvar : Expvar) (err : option error) (s : Service) :
  Cmdline (update_uptime expvar (check_restart err s)) = Cmdline s
  /\ Name (update_uptime expvar (check_restart err s)) = Name s.
Proof.
  unfold update_uptime.
  destruct (jason.GetInt64 expvar uptimeCounter); cbn; tauto.
Qed.

Lemma Update_without_resolution (s : Service) (t : Tick) :
  Cmdline s <> "" ->
  Update s t
  = write_row (now t)
      (update_stacks (fetched t)
         (update_uptime (fetched t) (check_restart (fetch_err t) s))).
Proof.
  intros Hne.
  destruct (uptime_keeps_names (fetched t) (fetch_err t) s) as [Hc _].
  unfold Update; cbn zeta.
  rewrite update_cmdline_resolved; [reflexivity|].
  rewrite Hc. exact Hne.
Qed.

Lemma Update_keeps_names (s : Service) (t : Tick) :
  Cmdline s <> "" ->
  Cmdline (Update s t) = Cmdline s /\ Name (Update s t) = Name s.
Proof.
  intros Hne.
  rewrite (Update_without_resolution s t Hne).
  destruct (write_row_frame (now t)
    (update_stacks (fetched t)
       (update_uptime (fetched t) (check_restart (fetch_err t) s))))
    as (_ & _ & _ & _ & -> & ->).
  apply (uptime_keeps_names (fetched t) (fetch_err t) s).
Qed.

(** C6: with a command line already stored, a tick leaves [Cmdline] and
    [Name] alone whatever the document says, and so does every run of
    ticks; the resolution step is the identity then, so the tick is the
    one without it. *)
Theorem names_resolved_once (s : Service) (t : Tick) :
  Cmdline s <> "" ->
  Cmdline (Update s t) = Cmdline s
  /\ Name (Update s t) = Name s
  /\ (forall expvar, update_cmdline expvar s = s)
  /\ Update s t
     = write_row (now t)
         (update_stacks (fetched t)
            (update_uptime (fetched t) (check_restart (fetch_err t) s)))
  /\ (forall ts, Cmdline (Updates s ts) = Cmdline s
                 /\ Name (Updates s ts) = Name s).
Proof.
  intros Hne.
  destruct (Update_keeps_names s t Hne) as [Hc Hn].
  split; [exact Hc|]. split; [exact Hn|].
  split; [intros expvar; apply update_cmdline_resolved, Hne|].
  split; [apply Update_without_resolution, Hne|].
  intros ts. unfold Updates.
  clear t Hc Hn. revert s Hne.
  induction ts as [|t ts IH]; intros s Hne; cbn; [tauto|].
  destruct (Update_keeps_names s t Hne) as [Hc Hn].
  rewrite <- Hc, <- Hn.
  apply IH. rewrite Hc. exact Hne.
Qed.

(** C7: in one tick every tracked variable is handled on its own: a
    failed extraction pushes nil on its stack, a value that normalizes
    to nothing leaves the stack (and so its front) as it was, a
    normalized value is pushed; none of this reaches [Err], which is
    what the steps before the loop left. *)
Theorem variables_pushed_independently (s : Service) (t : Tick)
    (name : VarName) (stack : Stack) :
  stacks s !! name = Some stack ->
  (forall e, jason.GetValue (fetched t) (ToSlice name) = Failed e ->
        stacks (Update s t) !! name = Some (Push stack None)
        /\ Front (Push stack None) = None)
  /\ (forall raw, jason.GetValue (fetched t) (ToSlice name) = Ok raw ->
        guessValue raw = None ->
        stacks (Update s t) !! name = Some stack)
  /\ (forall raw v, jason.GetValue (fetched t) (ToSlice name) = Ok raw ->
        guessValue raw = Some v ->
        stacks (Update s t) !! name = Some (Push stack (Some v)))
  /\ Err (Update s t)
     = Err (update_cmdline (fetched t)
              (update_uptime (fetched t) (check_restart (fetch_err t) s)))
  /\ (forall other, is_Some (stacks (Update s t) !! other)
                    <-> is_Some (stacks s !! other)).
Proof.
  intros Hname.
  assert (Hlook : forall other,
            stacks (Update s t) !! other
            = push_var (fetched t) other <$> stacks s !! other).
  { intros other. rewrite Update_stacks, map_lookup_imap.
    destruct (stacks s !! other); reflexivity. }
  split; [|split; [|split; [|split]]].
  - intros e He. split; [|apply Front_Push_nil].
    rewrite Hlook, Hname; cbn. unfold push_var. rewrite He. reflexivity.
  - intros raw Hraw Hguess.
    rewrite Hlook, Hname; cbn. unfold push_var. rewrite Hraw, Hguess. reflexivity.
  - intros raw v Hraw Hguess.
    rewrite Hlook, Hname; cbn. unfold push_var. rewrite Hraw, Hguess. reflexivity.
  - apply Update_Err.
  - intros other. rewrite Hlook. apply fmap_is_Some.
Qed.

(** C8: [Value] answers "N/A" when [Err] is set, when the name is not
    tracked and when the front of its stack is nil; otherwise it is the
    front, formatted with the kind of the name. *)
Theorem Value_cases (s : Service) (name : VarName) :
  (forall e, Err s = Some e -> Value s name = "N/A")
  /\ (stacks s !! name = None -> Value s name = "N/A")
  /\ (forall val, stacks s !! name = Some val -> Front val = None ->
                  Value s name = "N/A")
  /\ (forall val v, Err s = None -> stacks s !! name = Some val ->
                    Front val = Some v ->
                    Value s name = Format v (Kind name)).
Proof.
  unfold Value.
  split; [|split; [|split]].
  - intros e ->. reflexivity.
  - intros ->. destruct (Err s); reflexivity.
  - intros val -> ->. destruct (Err s); reflexivity.
  - intros val v -> -> ->. reflexivity.
Qed.

(** C10: a tick whose fetch succeeded still ends with [Err] set when
    the uptime counter cannot be read, or when the command line is
    still empty and cannot be read; [Value] is then "N/A" for every
    name, while the stacks received their pushes as on any tick. *)
Theorem Err_set_by_missing_paths (s : Service) (t : Tick) :
  fetch_err t = None ->
  succeeded (jason.GetInt64 (fetched t) uptimeCounter) = false
  \/ (Cmdline s = ""
      /\ succeeded (jason.GetStringArray (fetched t) ["cmdline"]) = false) ->
  is_Some (Err (Update s t))
  /\ (forall name, Value (Update s t) name = "N/A")
  /\ stacks (Update s t)
     = map_imap (fun name stack => Some (push_var (fetched t) name stack)) (stacks s).
Proof.
  intros Hfetch Hmissing.
  assert (HErr : is_Some (Err (Update s t))).
  { rewrite Update_Err.
    destruct (uptime_keeps_names (fetched t) (fetch_err t) s) as [Hc _].
    unfold update_cmdline. rewrite Hc.
    destruct Hmissing as [Hcounter | [Hempty Hcmd]].
    - unfold update_uptime.
      destruct (jason.GetInt64 (fetched t) uptimeCounter); [discriminate|].
      destruct (String.length (Cmdline s) =? 0)%nat; [|cbn; eauto].
      destruct (jason.GetStringArray (fetched t) ["cmdline"]); cbn; eauto.
    - rewrite Hempty; cbn.
      destruct (jason.GetStringArray (fetched t) ["cmdline"]); [discriminate|].
      cbn; eauto. }
  split; [exact HErr|]. split; [|apply Update_stacks].
  intros name. destruct HErr as [e He].
  unfold Value. rewrite He. reflexivity.
Qed.

End Tick.

(** * Further properties of service.go *)

(** ** Construction *)

Lemma fold_insert_lookup {A : Type} (x : A) (vs : list string)
    (m : gmap string A) (name : string) :
  fold_left (fun m n => <[n := x]> m) vs m !! name
  = if decide (name ∈ vs) then Some x else m !! name.
Proof.
  revert m.
  induction vs as [|n vs IH]; intros m; cbn [fold_left].
  - destruct (decide (name ∈ [])) as [Hin|_]; [|reflexivity].
    apply elem_of_nil in Hin. contradiction.
  - rewrite IH.
    destruct (decide (name ∈ vs)) as [Hin|Hout].
    + rewrite decide_True; [reflexivity | apply elem_of_cons; tauto].
    + destruct (decide (n = name)) as [->|Hne].
      * rewrite lookup_insert_eq.
        rewrite decide_True; [reflexivity | apply elem_of_cons; tauto].
      * rewrite lookup_insert_ne by exact Hne.
        rewrite decide_False; [reflexivity|].
        intros [Heq|Hin]%elem_of_cons; [congruence | contradiction].
Qed.

Section Construction.
Context `{Collab : Collaborators}.

Lemma NewService_fields (url : url_URL) (vs : list VarName)
    (create_err : option error) (s : Service) :
  NewService url vs create_err = Some s ->
  URL s = url /\ Name s = Host url /\ Cmdline s = "" /\ vars s = vs
  /\ stacks s = fold_left (fun m name => <[name := NewStack]> m) vs ∅
  /\ Err s = None /\ Restarted s = false /\ UptimeCounter s = 0%Z
  /\ w s = (if serialize then ["time" :: vs] else []).
Proof.
  unfold NewService; cbv zeta.
  destruct serialize.
  - destruct create_err; [discriminate|].
    intros Hs; injection Hs as <-. cbn. repeat split.
  - intros Hs; injection Hs as <-. cbn. repeat split.
Qed.

(** X1: a service that [NewService] returns tracks exactly the names
    it was given, each with a new empty stack (a name given twice has
    one stack), is named after the host, and starts with no command
    line, no error, the flag down and the counter at zero. *)
Theorem NewService_initial_state (url : url_URL) (vs : list VarName)
    (create_err : option error) (s : Service) :
  NewService url vs create_err = Some s ->
  (forall name,
      stacks s !! name = if decide (name ∈ vs) then Some NewStack else None)
  /\ vars s = vs /\ URL s = url /\ Name s = Host url /\ Cmdline s = ""
  /\ Err s = None /\ Restarted s = false /\ UptimeCounter s = 0%Z.
Proof.
  intros Hnew.
  destruct (NewService_fields url vs create_err s Hnew)
    as (Hurl & Hname & Hcmd & Hvars & Hstacks & Herr & Hflag & Hcnt & _).
  split; [|tauto].
  intros name. rewrite Hstacks, fold_insert_lookup, lookup_empty. reflexivity.
Qed.

(** X2: [NewService] gives up (it panics) exactly when the csv export
    is on and the file could not be created; a service it returns has
    written the header record "time" followed by the names when the
    export is on, and nothing otherwise. *)
Theorem NewService_file_and_header (url : url_URL) (vs : list VarName)
    (create_err : option error) :
  (NewService url vs create_err = None <->
   serialize = true /\ is_Some create_err)
  /\ (forall s, NewService url vs create_err = Some s ->
                w s = if serialize then ["time" :: vs] else []).
Proof.
  split.
  - unfold NewService; cbv zeta.
    destruct serialize; [destruct create_err as [e|]|].
    + split; [intros _; split; [reflexivity | eexists; reflexivity] | reflexivity].
    + split; [discriminate | intros [_ [x Hx]]; discriminate].
    + split; [discriminate | intros [Hs _]; discriminate].
  - intros s Hnew. apply (NewService_fields url vs create_err s Hnew).
Qed.

End Construction.

(** ** What a tick leaves in [Err] and [Restarted] *)

Section Outcome.
Context `{Collab : Collaborators}.

Lemma step_frames (expvar : Expvar) (err : option error) (tm : string) (s : Service) :
  (URL (check_restart err s) = URL s /\ vars (check_restart err s) = vars s
   /\ w (check_restart err s) = w s)
  /\ (URL (update_uptime expvar s) = URL s /\ vars (update_uptime expvar s) = vars s
      /\ w (update_uptime expvar s) = w s)
  /\ (URL (update_cmdline expvar s) = URL s /\ vars (update_cmdline expvar s) = vars s
      /\ w (update_cmdline expvar s) = w s)
  /\ (URL (update_stacks expvar s) = URL s /\ vars (update_stacks expvar s) = vars s
      /\ w (update_stacks expvar s) = w s)
  /\ (URL (write_row tm s) = URL s /\ vars (write_row tm s) = vars s).
Proof.
  unfold check_restart, update_uptime, update_cmdline, update_stacks, write_row.
  destruct (jason.GetInt64 expvar uptimeCounter),
    (String.length (Cmdline s) =? 0)%nat,
    (jason.GetStringArray expvar ["cmdline"]), serialize; cbn; tauto.
Qed.

Lemma Update_before_row (s : Service) (t : Tick) :
  Update s t = write_row (now t) (before_row s t).
Proof. reflexivity. Qed.

Lemma before_row_frame (s : Service) (t : Tick) :
  URL (before_row s t) = URL s /\ vars (before_row s t) = vars s
  /\ w (before_row s t) = w s.
Proof.
  unfold before_row.
  pose proof (step_frames (fetched t) (fetch_err t) (now t) s) as (H1 & _).
  pose proof (step_frames (fetched t) (fetch_err t) (now t)
                (check_restart (fetch_err t) s)) as (_ & H2 & _).
  pose proof (step_frames (fetched t) (fetch_err t) (now t)
                (update_uptime (fetched t) (check_restart (fetch_err t) s)))
    as (_ & _ & H3 & _).
  pose proof (step_frames (fetched t) (fetch_err t) (now t)
                (update_cmdline (fetched t)
                   (update_uptime (fetched t) (check_restart (fetch_err t) s))))
    as (_ & _ & _ & H4 & _).
  destruct H1 as (? & ? & ?), H2 as (? & ? & ?), H3 as (? & ? & ?), H4 as (? & ? & ?).
  repeat split; congruence.
Qed.

Lemma Update_frame (s : Service) (t : Tick) :
  URL (Update s t) = URL s /\ vars (Update s t) = vars s.
Proof.
  rewrite Update_before_row.
  pose proof (step_frames (fetched t) (fetch_err t) (now t) (before_row s t))
    as (_ & _ & _ & _ & H5 & H6).
  destruct (before_row_frame s t) as (? & ? & _).
  split; congruence.
Qed.

(** The error a tick ends with: the last read that failed, and the fetch
    outcome when none did. *)
Lemma Err_after_tick (s : Service) (t : Tick) :
  Err (Update s t)
  = let counter_err :=
      match jason.GetInt64 (fetched t) uptimeCounter with
      | Failed e => Some e
      | Ok _ => fetch_err t
      end in
    if (String.length (Cmdline s) =? 0)%nat then
      match jason.GetStringArray (fetched t) ["cmdline"] with
      | Failed e => Some e
      | Ok _ => counter_err
      end
    else counter_err.
Proof.
  rewrite Update_Err. cbv zeta.
  destruct (uptime_keeps_names (fetched t) (fetch_err t) s) as [Hc _].
  unfold update_cmdline. rewrite Hc.
  assert (Hcounter : Err (update_uptime (fetched t) (check_restart (fetch_err t) s))
                     = match jason.GetInt64 (fetched t) uptimeCounter with
                       | Failed e => Some e
                       | Ok _ => fetch_err t
                       end).
  { unfold update_uptime.
    destruct (jason.GetInt64 (fetched t) uptimeCounter); reflexivity. }
  destruct (String.length (Cmdline s) =? 0)%nat; [|exact Hcounter].
  destruct (jason.GetStringArray (fetched t) ["cmdline"]); cbn; [exact Hcounter | reflexivity].
Qed.

(** X3: a tick ends with [Err] nil exactly when the fetch succeeded,
    the uptime counter was read, and the command line either was
    already stored or was read. *)
Theorem Err_nil_after_tick (s : Service) (t : Tick) :
  Err (Update s t) = None <->
  fetch_err t = None
  /\ succeeded (jason.GetInt64 (fetched t) uptimeCounter) = true
  /\ (Cmdline s <> ""
      \/ succeeded (jason.GetStringArray (fetched t) ["cmdline"]) = true).
Proof.
  rewrite Err_after_tick. cbv zeta.
  destruct (jason.GetInt64 (fetched t) uptimeCounter) as [c|e']; cbn [succeeded].
  2: { split; [|intros (_ & Hno & _); discriminate].
       destruct (String.length (Cmdline s) =? 0)%nat; [|discriminate].
       destruct (jason.GetStringArray (fetched t) ["cmdline"]); discriminate. }
  destruct (String.length (Cmdline s) =? 0)%nat eqn:Hlen.
  - apply length_zero_empty in Hlen.
    destruct (jason.GetStringArray (fetched t) ["cmdline"]) as [cmdline|e]; cbn [succeeded].
    + split; [intros ->; repeat split; right; reflexivity | intros (-> & _); reflexivity].
    + split; [discriminate|].
      intros (_ & _ & [Hne | Hno]); [contradiction | discriminate].
  - assert (Hne : Cmdline s <> "").
    { intros Hempty. apply length_zero_empty in Hempty. congruence. }
    split; [intros ->; repeat split; left; exact Hne | intros (-> & _); reflexivity].
Qed.

(** X4: the error a tick stores is that of the last read that failed:
    the command-line read when it is made and fails, else the counter
    read when it fails, and only otherwise the outcome of the fetch. *)
Theorem Err_is_last_failure (s : Service) (t : Tick) :
  (forall e, Cmdline s = "" ->
      jason.GetStringArray (fetched t) ["cmdline"] = Failed e ->
      Err (Update s t) = Some e)
  /\ (forall e,
      Cmdline s <> ""
      \/ succeeded (jason.GetStringArray (fetched t) ["cmdline"]) = true ->
      jason.GetInt64 (fetched t) uptimeCounter = Failed e ->
      Err (Update s t) = Some e)
  /\ (Cmdline s <> ""
      \/ succeeded (jason.GetStringArray (fetched t) ["cmdline"]) = true ->
      succeeded (jason.GetInt64 (fetched t) uptimeCounter) = true ->
      Err (Update s t) = fetch_err t).
Proof.
  rewrite Err_after_tick. cbv zeta.
  split; [|split].
  - intros e -> ->. reflexivity.
  - intros e Hcmd ->.
    destruct (String.length (Cmdline s) =? 0)%nat eqn:Hlen; [|reflexivity].
    apply length_zero_empty in Hlen.
    destruct Hcmd as [Hne | Hok]; [contradiction|].
    destruct (jason.GetStringArray (fetched t) ["cmdline"]); [reflexivity | discriminate].
  - intros Hcmd Hcounter.
    destruct (jason.GetInt64 (fetched t) uptimeCounter); [|discriminate].
    destruct (String.length (Cmdline s) =? 0)%nat eqn:Hlen; [|reflexivity].
    apply length_zero_empty in Hlen.
    destruct Hcmd as [Hne | Hok]; [contradiction|].
    destruct (jason.GetStringArray (fetched t) ["cmdline"]); [reflexivity | discriminate].
Qed.

(** X5: after a tick [Restarted] is true in exactly three cases: it
    was true before, [Err] was set and the fetch succeeded, or the
    counter was read below the stored one. *)
Theorem Restarted_after_tick (s : Service) (t : Tick) :
  Restarted (Update s t)
  = Restarted s
    || match Err s, fetch_err t with Some _, None => true | _, _ => false end
    || match jason.GetInt64 (fetched t) uptimeCounter with
       | Ok c => (UptimeCounter s >? c)%Z
       | Failed _ => false
       end.
Proof.
  rewrite Update_Restarted, update_uptime_Restarted, check_restart_Restarted.
  cbn [UptimeCounter check_restart].
  destruct (jason.GetInt64 (fetched t) uptimeCounter) as [c|e];
    [destruct (UptimeCounter s >? c)%Z|];
    destruct (Restarted s), (Err s), (fetch_err t); reflexivity.
Qed.

Lemma steady_tick (s : Service) (t : Tick) (c : Z) :
  Restarted s = false -> Err s = None ->
  fetch_err t = None ->
  jason.GetInt64 (fetched t) uptimeCounter = Ok c ->
  (UptimeCounter s <=? c)%Z = true ->
  succeeded (jason.GetStringArray (fetched t) ["cmdline"]) = true ->
  Restarted (Update s t) = false /\ Err (Update s t) = None
  /\ UptimeCounter (Update s t) = c.
Proof.
  intros Hflag Herr Hfetch Hc Hle Hcmd.
  split; [|split].
  - rewrite Update_Restarted, update_uptime_Restarted, check_restart_Restarted.
    rewrite Hc, Herr, Hflag. cbn.
    rewrite Z.gtb_ltb. apply Z.leb_le in Hle. rewrite orb_false_r.
    apply Z.ltb_ge. exact Hle.
  - rewrite Err_after_tick. cbv zeta. rewrite Hc, Hfetch.
    destruct (jason.GetStringArray (fetched t) ["cmdline"]); [|discriminate].
    destruct (String.length (Cmdline s) =? 0)%nat; reflexivity.
  - rewrite Update_UptimeCounter. unfold update_uptime. rewrite Hc. reflexivity.
Qed.

(** X6: no false alarm: from a healthy state with the flag down, a run
    of ticks that all fetch, read the command line and read a counter
    that never goes down ends with the flag still down and [Err] nil. *)
Theorem steady_run_raises_nothing (s : Service) (ts : list Tick) :
  Restarted s = false -> Err s = None ->
  steady (UptimeCounter s) ts = true ->
  Restarted (Updates s ts) = false /\ Err (Updates s ts) = None.
Proof.
  unfold Updates. revert s.
  induction ts as [|t ts IH]; intros s Hflag Herr Hrun; cbn [fold_left].
  - split; assumption.
  - cbn [steady] in Hrun.
    destruct (fetch_err t) eqn:Hfetch; [discriminate|].
    destruct (jason.GetInt64 (fetched t) uptimeCounter) as [c|] eqn:Hc; [|discriminate].
    destruct (jason.GetStringArray (fetched t) ["cmdline"]) eqn:Hcmd; [|discriminate].
    apply andb_true_iff in Hrun as [Hle Hrest].
    destruct (steady_tick s t c Hflag Herr Hfetch Hc Hle) as (Hflag' & Herr' & Hcnt').
    { rewrite Hcmd. reflexivity. }
    apply IH; [exact Hflag' | exact Herr' | rewrite Hcnt'; exact Hrest].
Qed.

(** X14: ticks that cannot read the uptime counter leave the stored
    counter alone, however many they are, and each of them ends with
    [Err] set. *)
Theorem counter_survives_outage (s : Service) (ts : list Tick) :
  Forall (fun t => succeeded (jason.GetInt64 (fetched t) uptimeCounter) = false) ts ->
  UptimeCounter (Updates s ts) = UptimeCounter s
  /\ (ts = [] \/ is_Some (Err (Updates s ts))).
Proof.
  unfold Updates. revert s.
  induction ts as [|t ts IH]; intros s Hall; cbn [fold_left].
  - split; [reflexivity | left; reflexivity].
  - apply Forall_cons in Hall as [Ht Hall].
    assert (Hcnt : UptimeCounter (Update s t) = UptimeCounter s).
    { rewrite Update_UptimeCounter. unfold update_uptime.
      destruct (jason.GetInt64 (fetched t) uptimeCounter); [discriminate | reflexivity]. }
    assert (Herr : is_Some (Err (Update s t))).
    { rewrite Err_after_tick. cbv zeta.
      destruct (jason.GetInt64 (fetched t) uptimeCounter); [discriminate|].
      destruct (String.length (Cmdline s) =? 0)%nat; [|eexists; reflexivity].
      destruct (jason.GetStringArray (fetched t) ["cmdline"]); eexists; reflexivity. }
    destruct (IH (Update s t) Hall) as [Hkeep Hlast].
    split; [rewrite Hkeep; exact Hcnt|].
    right. destruct Hlast as [-> | Hlast]; [exact Herr | exact Hlast].
Qed.

End Outcome.

(** ** Tracked names, the csv records, and name resolution *)

Section Records.
Context `{Collab : Collaborators}.

Lemma Updates_frame (s : Service) (ts : list Tick) :
  URL (Updates s ts) = URL s /\ vars (Updates s ts) = vars s
  /\ (forall name, is_Some (stacks (Updates s ts) !! name)
                   <-> is_Some (stacks s !! name)).
Proof.
  unfold Updates. revert s.
  induction ts as [|t ts IH]; intros s; cbn [fold_left].
  - repeat split; tauto.
  - destruct (IH (Update s t)) as (Hurl & Hvars & Hdom).
    destruct (Update_frame s t) as [Hurl1 Hvars1].
    split; [congruence|]. split; [congruence|].
    intros name. rewrite Hdom, Update_stacks, map_lookup_imap.
    destruct (stacks s !! name); cbn; split; intros [x Hx];
      (discriminate || (eexists; reflexivity)).
Qed.

(** X7: whatever ticks follow, a service from [NewService] keeps its
    address and its list of names, has a stack for a name exactly when
    the name was given at construction, and answers "N/A" for every
    other name. *)
Theorem tracked_names_are_fixed (url : url_URL) (vs : list VarName)
    (create_err : option error) (s : Service) (ts : list Tick) :
  NewService url vs create_err = Some s ->
  URL (Updates s ts) = url
  /\ vars (Updates s ts) = vs
  /\ (forall name, is_Some (stacks (Updates s ts) !! name) <-> name ∈ vs)
  /\ (forall name, name ∉ vs -> Value (Updates s ts) name = "N/A").
Proof.
  intros Hnew.
  destruct (NewService_fields url vs create_err s Hnew)
    as (Hurl & _ & _ & Hvars & Hstacks & _).
  destruct (Updates_frame s ts) as (Hurl' & Hvars' & Hdom).
  assert (Htracked : forall name,
            is_Some (stacks (Updates s ts) !! name) <-> name ∈ vs).
  { intros name. rewrite Hdom, Hstacks, fold_insert_lookup, lookup_empty.
    destruct (decide (name ∈ vs)) as [Hin|Hout]; split; intros H;
      try assumption; try (eexists; reflexivity); try contradiction.
    destruct H as [x Hx]; discriminate. }
  split; [congruence|]. split; [congruence|]. split; [exact Htracked|].
  intros name Hout. unfold Value.
  destruct (Err (Updates s ts)); [reflexivity|].
  destruct (stacks (Updates s ts) !! name) eqn:Hlook; [|reflexivity].
  exfalso. apply Hout, Htracked. rewrite Hlook. eexists; reflexivity.
Qed.

Lemma Value_write_row (tm : string) (s : Service) (name : VarName) :
  Value (write_row tm s) name = Value s name.
Proof.
  unfold Value.
  destruct (write_row_frame tm s) as (_ & _ & -> & -> & _).
  reflexivity.
Qed.

Lemma Update_w (s : Service) (t : Tick) :
  w (Update s t)
  = if serialize
    then (w s ++ [now t :: map (Value (Update s t)) (vars s)])%list
    else w s.
Proof.
  rewrite Update_before_row.
  destruct (before_row_frame s t) as (_ & Hvars & Hw).
  assert (Hmap : map (Value (write_row (now t) (before_row s t))) (vars s)
                 = map (Value (before_row s t)) (vars s)).
  { apply map_ext. intros name. apply Value_write_row. }
  rewrite Hmap.
  unfold write_row.
  destruct serialize; [|exact Hw].
  cbn [w]. rewrite Hvars, Hw. reflexivity.
Qed.

(** X8: with the csv export on, a tick appends exactly one record: the
    time, then for each name of [vars], in order, what [Value] answers
    once the tick is over; with the export off the records are left
    alone. *)
Theorem one_record_per_tick (s : Service) (t : Tick) :
  (serialize = true ->
   w (Update s t) = (w s ++ [now t :: map (Value (Update s t)) (vars s)])%list)
  /\ (serialize = false -> w (Update s t) = w s).
Proof.
  rewrite Update_w.
  split; intros ->; reflexivity.
Qed.

(** X9: the csv file stays rectangular: after [NewService] and any run
    of ticks with the export on, the header is still the first record,
    there is one more record per tick, and every record has one field
    more than there are names. *)
Theorem csv_is_rectangular (url : url_URL) (vs : list VarName)
    (create_err : option error) (s : Service) (ts : list Tick) :
  serialize = true ->
  NewService url vs create_err = Some s ->
  head (w (Updates s ts)) = Some ("time" :: vs)
  /\ length (w (Updates s ts)) = S (length ts)
  /\ Forall (fun record => length record = S (length vs)) (w (Updates s ts)).
Proof.
  intros Hon Hnew.
  destruct (NewService_fields url vs create_err s Hnew)
    as (_ & _ & _ & Hvars & _ & _ & _ & _ & Hw).
  rewrite Hon in Hw.
  assert (Hinv : forall (ts : list Tick) (s : Service),
            vars s = vs ->
            head (w s) = Some ("time" :: vs) ->
            Forall (fun record => length record = S (length vs)) (w s) ->
            head (w (Updates s ts)) = Some ("time" :: vs)
            /\ length (w (Updates s ts)) = (length (w s) + length ts)%nat
            /\ Forall (fun record => length record = S (length vs)) (w (Updates s ts))).
  { clear s ts Hnew Hvars Hw. unfold Updates.
    induction ts as [|t ts IH]; intros s Hvars Hhead Hall; cbn [fold_left length].
    - rewrite Nat.add_0_r. tauto.
    - destruct (Update_frame s t) as [_ Hvars1].
      pose proof (Update_w s t) as Hw1. rewrite Hon in Hw1.
      destruct (IH (Update s t)) as (Hh & Hl & Hf).
      + congruence.
      + rewrite Hw1. destruct (w s); [discriminate | exact Hhead].
      + rewrite Hw1. apply Forall_app. split; [exact Hall|].
        apply Forall_cons. split; [|apply Forall_nil; exact I].
        cbn. rewrite length_map, Hvars. reflexivity.
      + split; [exact Hh|]. split; [|exact Hf].
        rewrite Hl, Hw1, length_app. cbn. lia. }
  destruct (Hinv ts s Hvars) as (Hh & Hl & Hf).
  - rewrite Hw. reflexivity.
  - rewrite Hw. apply Forall_cons. split; [reflexivity | apply Forall_nil; exact I].
  - split; [exact Hh|]. split; [|exact Hf].
    rewrite Hl, Hw. reflexivity.
Qed.

(** X10: with the csv export on, a tick that ends with [Err] set
    writes "N/A" in every column of its record. *)
Theorem failed_tick_writes_NA (s : Service) (t : Tick) :
  serialize = true ->
  is_Some (Err (Update s t)) ->
  w (Update s t) = (w s ++ [now t :: map (fun _ => "N/A") (vars s)])%list.
Proof.
  intros Hon [e He].
  rewrite Update_w, Hon.
  do 3 f_equal. apply map_ext. intros name.
  unfold Value. rewrite He. reflexivity.
Qed.

Lemma Update_names (s : Service) (t : Tick) :
  Cmdline (Update s t)
  = Cmdline (update_cmdline (fetched t)
               (update_uptime (fetched t) (check_restart (fetch_err t) s)))
  /\ Name (Update s t)
     = Name (update_cmdline (fetched t)
               (update_uptime (fetched t) (check_restart (fetch_err t) s))).
Proof.
  rewrite Update_before_row.
  destruct (write_row_frame (now t) (before_row s t)) as (_ & _ & _ & _ & -> & ->).
  split; reflexivity.
Qed.

Lemma Update_resolves (s : Service) (t : Tick) (cmdline : list string) :
  Cmdline s = "" ->
  jason.GetStringArray (fetched t) ["cmdline"] = Ok cmdline ->
  Cmdline (Update s t) = String.concat " " cmdline
  /\ Name (Update s t) = BaseCommand cmdline.
Proof.
  intros Hempty Hcmd.
  destruct (Update_names s t) as [-> ->].
  destruct (uptime_keeps_names (fetched t) (fetch_err t) s) as [Hc _].
  unfold update_cmdline. rewrite Hc, Hempty, Hcmd. cbn. split; reflexivity.
Qed.

(** X11: while no command line is stored, a tick that reads one
    stores its tokens joined by spaces and names the service after
    [BaseCommand]; a tick that cannot read it leaves both as they were
    and stores the read's error. *)
Theorem first_resolution (s : Service) (t : Tick) :
  Cmdline s = "" ->
  (forall cmdline,
      jason.GetStringArray (fetched t) ["cmdline"] = Ok cmdline ->
      Cmdline (Update s t) = String.concat " " cmdline
      /\ Name (Update s t) = BaseCommand cmdline)
  /\ (forall e,
      jason.GetStringArray (fetched t) ["cmdline"] = Failed e ->
      Cmdline (Update s t) = "" /\ Name (Update s t) = Name s
      /\ Err (Update s t) = Some e).
Proof.
  intros Hempty. split.
  - intros cmdline Hcmd. apply Update_resolves; assumption.
  - intros e Hcmd.
    destruct (uptime_keeps_names (fetched t) (fetch_err t) s) as [Hc Hn].
    rewrite Hempty in Hc.
    split; [|split].
    + rewrite (proj1 (Update_names s t)).
      remember (update_uptime (fetched t) (check_restart (fetch_err t) s)) as s2.
      unfold update_cmdline. rewrite Hc, Hcmd. reflexivity.
    + rewrite (proj2 (Update_names s t)).
      remember (update_uptime (fetched t) (check_restart (fetch_err t) s)) as s2.
      unfold update_cmdline. rewrite Hc, Hcmd. cbn. exact Hn.
    + rewrite Err_after_tick. cbv zeta. rewrite Hempty, Hcmd. reflexivity.
Qed.

(** X12: the resolution is repeated as long as the stored command
    line is empty: after a tick whose command line joins to the empty
    string (a single empty token, say), the next tick that reads one
    replaces both the command line and the name. *)
Theorem empty_cmdline_resolves_again (s : Service) (t1 t2 : Tick)
    (cmd1 cmd2 : list string) :
  Cmdline s = "" ->
  jason.GetStringArray (fetched t1) ["cmdline"] = Ok cmd1 ->
  String.concat " " cmd1 = "" ->
  jason.GetStringArray (fetched t2) ["cmdline"] = Ok cmd2 ->
  Name (Update s t1) = BaseCommand cmd1
  /\ Cmdline (Update (Update s t1) t2) = String.concat " " cmd2
  /\ Name (Update (Update s t1) t2) = BaseCommand cmd2.
Proof.
  intros Hempty Hcmd1 Hjoin Hcmd2.
  destruct (Update_resolves s t1 cmd1 Hempty Hcmd1) as [Hc1 Hn1].
  split; [exact Hn1|].
  apply Update_resolves; [|exact Hcmd2].
  rewrite Hc1. exact Hjoin.
Qed.

(** X13: after a tick [Max] answers from the document and the stacks
    the tick started with alone: nil for a name without a stack,
    otherwise the formatted maximum of the stack as this tick's push
    left it, whether or not the tick ended with [Err] set. *)
Theorem Max_after_tick (s : Service) (t : Tick) (name : VarName) :
  Service_Max (Update s t) name
  = match stacks s !! name with
    | None => None
    | Some stack =>
        match Max (push_var (fetched t) name stack) with
        | None => None
        | Some v => Some (Format v (Kind name))
        end
    end.
Proof.
  unfold Service_Max.
  rewrite Update_stacks, map_lookup_imap.
  destruct (stacks s !! name); reflexivity.
Qed.

End Records.

(** ** Integers out of the normalizer *)

Lemma int64_of_float64_in_range (f : float) :
  in_int64 (int64_of_float64 f) = true.
Proof.
  unfold int64_of_float64.
  destruct (Prim2SF f) as [sign| sign | | sign m e]; try reflexivity.
  cbv zeta.
  match goal with
  | |- in_int64 (if in_int64 ?z then _ else _) = true =>
      destruct (in_int64 z) eqn:Hin; [exact Hin | reflexivity]
  end.
Qed.

Lemma Int64_in_range (v : jason.Value) (n : Z) :
  jason.Int64 v = Ok n -> in_int64 n = true.
Proof.
  destruct v as [|b|[z|f]|s|vs|fields]; cbn; try discriminate.
  destruct (in_int64 z) eqn:Hin; [|discriminate].
  intros [= <-]. exact Hin.
Qed.

(** X15: the integers [guessValue] returns: a Go int only as the 0 of
    an empty array, and otherwise an int64 that lies within the 64-bit
    range, also when it is the cut mean of an array. *)
Theorem guessValue_integers (v : jason.Value) (r : scalar) :
  guessValue v = Some r ->
  match r with
  | VInt n => v = jason.Arr [] /\ n = 0%Z
  | VInt64 n => in_int64 n = true
  | _ => True
  end.
Proof.
  unfold guessValue.
  destruct (jason.Int64 v) as [n|e] eqn:Hint.
  { intros [= <-]. exact (Int64_in_range v n Hint). }
  destruct (jason.Float64 v); [intros [= <-]; exact I|].
  destruct (jason.Boolean v); [intros [= <-]; exact I|].
  destruct (jason.String v); [intros [= <-]; exact I|].
  destruct v as [|b|num|s|vs|fields]; cbn; try discriminate.
  destruct vs as [|first rest]; [intros [= <-]; split; reflexivity|].
  destruct (jason.Int64 first); intros [= <-]; [|exact I].
  apply int64_of_float64_in_range.
Qed.

Section Bounds.
Context `{Collab : Collaborators}.

(** X16: the stored uptime counter stays a 64-bit value through every
    run of ticks. *)
Theorem UptimeCounter_in_range (s : Service) (ts : list Tick) :
  in_int64 (UptimeCounter s) = true ->
  in_int64 (UptimeCounter (Updates s ts)) = true.
Proof.
  unfold Updates. revert s.
  induction ts as [|t ts IH]; intros s Hs; cbn [fold_left]; [exact Hs|].
  apply IH. rewrite Update_UptimeCounter. unfold update_uptime.
  destruct (jason.GetInt64 (fetched t) uptimeCounter) as [c|e] eqn:Hc; cbn; [|exact Hs].
  unfold jason.GetInt64 in Hc.
  destruct (jason.getPath (fetched t) uptimeCounter) as [child|]; [|discriminate].
  exact (Int64_in_range child c Hc).
Qed.

End Bounds.

(** X17: an integer literal too large for an int64 is not dropped: as
    long as it fits a float64 it is kept as the nearest float. *)
Theorem guessValue_beyond_int64 (z : Z) :
  in_int64 z = false ->
  is_finite (float64_of_Z z) = true ->
  jason.Int64 (jason.Num (jason.IntLit z)) = Failed (NumError "value out of range")
  /\ guessValue (jason.Num (jason.IntLit z)) = Some (VFloat64 (float64_of_Z z)).
Proof.
  intros Hout Hfin.
  unfold guessValue; cbn. rewrite Hout.
  unfold jason.ParseFloat. rewrite Hfin. split; reflexivity.
Qed.

(** * The properties at work on a concrete monitor *)

Example monitor_is_new :
  @NewService plain {| Host := "localhost:1234" |}
    ["Goroutines"; "memstats.Alloc"; "Build"] None = Some monitor.
Proof. vm_compute. reflexivity. Qed.

Example guess_prefers_int64 :
  jason.Int64 (int 7) = Ok 7%Z
  /\ jason.Float64 (int 7) = Ok 7%float
  /\ guessValue (int 7) = Some (VInt64 7).
Proof. vm_compute. repeat split. Qed.

Example guess_beyond_int64 :
  guessValue (int (2 ^ 63)) = Some (VFloat64 (float64_of_Z (2 ^ 63))).
Proof. vm_compute. reflexivity. Qed.

Example guess_object_is_nil :
  guessValue (jason.Obj [("tag", jason.Str "v1")]) = None
  /\ guessValue jason.Null = None.
Proof. split; reflexivity. Qed.

(** The counter sequence 100, 250, 40, 300 of the specification: the
    flag appears at the third tick and stays. *)
Example counter_regression_run :
  map (fun n => Restarted (@Updates plain monitor (firstn n [tick 100; tick 250; tick 40; tick 300])))
      [1; 2; 3; 4]%nat
  = [false; false; true; true].
Proof. vm_compute. reflexivity. Qed.

(** C1, the claim as worded fails: the first tick is healthy, the second
    cannot fetch, and the flag is still down. *)
Lemma failing_fetch_after_healthy_tick :
  fetch_err (tick 100) = None
  /\ Err (@Update plain monitor (tick 100)) = None
  /\ fetch_err refused = Some (FetchError "connection refused")
  /\ Restarted (@Update plain (@Update plain monitor (tick 100)) refused) = false.
Proof. vm_compute. repeat split. Qed.


Lemma Restarted_over_two_ticks_witness :
  Err (@Update plain monitor refused) = Some ErrNotObject
  /\ UptimeCounter (@Update plain monitor refused) = 0%Z
  /\ Restarted (@Update plain (@Update plain monitor refused) (tick 100)) = true.
Proof.
  split; [vm_compute; reflexivity|].
  split; [vm_compute; reflexivity|].
  apply (proj1 (@Restarted_over_two_ticks plain monitor refused)
           ErrNotObject (tick 100)).
  - vm_compute; reflexivity.
  - reflexivity.
Defined.

Lemma Restarted_sticky_witness :
  Restarted (@Updates plain monitor [tick 100; tick 250; tick 40]) = true
  /\ Restarted (@Updates plain (@Updates plain monitor [tick 100; tick 250; tick 40])
                  [tick 300; refused; tick 500]) = true.
Proof.
  split; [vm_compute; reflexivity|].
  apply (@Restarted_sticky plain).
  vm_compute; reflexivity.
Defined.

Lemma uptime_counter_read_witness :
  jason.GetInt64 (fetched (tick 40)) (@uptimeCounter plain) = Ok 40%Z
  /\ UptimeCounter (@Updates plain monitor [tick 100; tick 250]) = 250%Z
  /\ UptimeCounter (@Update plain (@Updates plain monitor [tick 100; tick 250]) (tick 40)) = 40%Z
  /\ Restarted (@Update plain (@Updates plain monitor [tick 100; tick 250]) (tick 40)) = true.
Proof.
  split; [reflexivity|].
  split; [vm_compute; reflexivity|].
  pose proof (@uptime_counter_read plain
                (@Updates plain monitor [tick 100; tick 250]) (tick 40) 40%Z eq_refl)
    as (_ & _ & _ & Hcounter & Hflag).
  split; [exact Hcounter|].
  rewrite Hflag. vm_compute; reflexivity.
Defined.

Lemma restart_check_is_recovery_witness :
  Restarted (@Update plain (@Update plain monitor refused) (tick 0)) = true
  /\ Restarted (@Update plain (@Update plain monitor (tick 0)) refused) = false.
Proof.
  split.
  - apply (proj1 (@restart_check_is_recovery plain (@Update plain monitor refused) (tick 0))
             ErrNotObject).
    + vm_compute; reflexivity.
    + reflexivity.
  - destruct (@restart_check_is_recovery plain (@Update plain monitor (tick 0)) refused)
      as (_ & _ & _ & Hfailed).
    etransitivity;
      [exact (Hfailed (FetchError "connection refused") "12:00:05")
      | vm_compute; reflexivity].
Defined.

Lemma names_resolved_once_witness :
  Cmdline (@Update plain monitor (tick 100)) = "/usr/local/bin/app -v"
  /\ Name (@Update plain monitor (tick 100)) = "app"
  /\ Cmdline (@Update plain (@Update plain monitor (tick 100)) moved) = "/usr/local/bin/app -v"
  /\ Name (@Update plain (@Update plain monitor (tick 100)) moved) = "app".
Proof.
  split; [vm_compute; reflexivity|].
  split; [vm_compute; reflexivity|].
  assert (Hset : Cmdline (@Update plain monitor (tick 100)) <> "")
    by (vm_compute; discriminate).
  destruct (@names_resolved_once plain (@Update plain monitor (tick 100)) moved Hset)
    as (Hc & Hn & _).
  rewrite Hc, Hn. vm_compute. split; reflexivity.
Defined.

Lemma variables_pushed_independently_witness :
  stacks (@Update plain monitor bare) !! "memstats.Alloc"
    = Some (Push (@NewStack plain) None)
  /\ stacks (@Update plain monitor bare) !! "Build" = Some (@NewStack plain)
  /\ stacks (@Update plain monitor bare) !! "Goroutines"
    = Some (Push (@NewStack plain) (Some (VInt64 8))).
Proof.
  split; [|split].
  - apply (proj1 (@variables_pushed_independently plain monitor bare
                    "memstats.Alloc" (@NewStack plain) eq_refl)
             (KeyNotFoundError "memstats")).
    reflexivity.
  - destruct (@variables_pushed_independently plain monitor bare
                "Build" (@NewStack plain) eq_refl) as (_ & Hskip & _).
    apply (Hskip (jason.Obj [("tag", jason.Str "v1")])); reflexivity.
  - destruct (@variables_pushed_independently plain monitor bare
                "Goroutines" (@NewStack plain) eq_refl) as (_ & _ & Hpush & _).
    apply (Hpush (int 8)); reflexivity.
Defined.

Lemma Err_set_by_missing_paths_witness :
  fetch_err bare = None
  /\ Err (@Update plain monitor bare) = Some (KeyNotFoundError "memstats")
  /\ @Value plain (@Update plain monitor bare) "Goroutines" = "N/A"
  /\ (Front <$> stacks (@Update plain monitor bare) !! "Goroutines")
     = Some (Some (VInt64 8)).
Proof.
  split; [reflexivity|].
  split; [vm_compute; reflexivity|].
  destruct (@Err_set_by_missing_paths plain monitor bare eq_refl
              (or_introl eq_refl)) as (_ & Hvalue & Hstacks).
  split; [apply Hvalue|].
  rewrite Hstacks. vm_compute. reflexivity.
Defined.

Example Value_of_healthy_monitor :
  @Value plain (@Update plain monitor (tick 100)) "Goroutines" = "8"
  /\ @Value plain (@Update plain monitor (tick 100)) "Build" = "N/A"
  /\ @Value plain (@Update plain monitor (tick 100)) "Untracked" = "N/A"
  /\ @Value plain (@Update plain (@Update plain monitor (tick 100)) refused) "Goroutines" = "N/A".
Proof. vm_compute. repeat split. Qed.

(** ** The further properties on the concrete monitors *)

Lemma NewService_initial_state_witness :
  stacks monitor !! "memstats.Alloc" = Some (@NewStack plain)
  /\ stacks monitor !! "memstats" = None
  /\ Name monitor = "localhost:1234".
Proof.
  assert (Hnew : @NewService plain {| Host := "localhost:1234" |}
                   ["Goroutines"; "memstats.Alloc"; "Build"] None = Some monitor)
    by (vm_compute; reflexivity).
  destruct (@NewService_initial_state plain _ _ _ _ Hnew) as (Hstacks & _ & _ & Hname & _).
  split; [|split].
  - rewrite Hstacks. reflexivity.
  - rewrite Hstacks. reflexivity.
  - exact Hname.
Defined.

Lemma steady_run_raises_nothing_witness :
  Restarted (@Updates plain monitor [tick 100; tick 250; tick 250; tick 300]) = false
  /\ Err (@Updates plain monitor [tick 100; tick 250; tick 250; tick 300]) = None.
Proof.
  apply (@steady_run_raises_nothing plain monitor
           [tick 100; tick 250; tick 250; tick 300]); reflexivity.
Defined.

Lemma counter_survives_outage_witness :
  UptimeCounter (@Updates plain monitor [tick 250]) = 250%Z
  /\ UptimeCounter (@Updates plain (@Updates plain monitor [tick 250])
                      [refused; bare; refused]) = 250%Z.
Proof.
  split; [vm_compute; reflexivity|].
  etransitivity.
  - apply (@counter_survives_outage plain (@Updates plain monitor [tick 250])
             [refused; bare; refused]).
    repeat (apply Forall_cons; split; [reflexivity|]). apply Forall_nil. exact I.
  - vm_compute; reflexivity.
Defined.

Lemma tracked_names_are_fixed_witness :
  vars (@Updates plain monitor [tick 100; refused; bare])
  = ["Goroutines"; "memstats.Alloc"; "Build"]
  /\ @Value plain (@Updates plain monitor [tick 100; refused; bare]) "memstats" = "N/A".
Proof.
  assert (Hnew : @NewService plain {| Host := "localhost:1234" |}
                   ["Goroutines"; "memstats.Alloc"; "Build"] None = Some monitor)
    by (vm_compute; reflexivity).
  destruct (@tracked_names_are_fixed plain _ _ _ _ [tick 100; refused; bare] Hnew)
    as (_ & Hvars & _ & Hother).
  split; [exact Hvars|].
  apply Hother. vm_compute. intros Hin.
  repeat (apply elem_of_cons in Hin as [Hin|Hin]; [discriminate|]).
  apply elem_of_nil in Hin. exact Hin.
Defined.

Lemma csv_is_rectangular_witness :
  head (w (@Updates logged journal [tick 100; refused; bare]))
  = Some ["time"; "Goroutines"; "memstats.Alloc"; "Build"]
  /\ length (w (@Updates logged journal [tick 100; refused; bare])) = 4%nat
  /\ Forall (fun record => length record = 4%nat)
       (w (@Updates logged journal [tick 100; refused; bare])).
Proof.
  assert (Hnew : @NewService logged {| Host := "localhost:1234" |}
                   ["Goroutines"; "memstats.Alloc"; "Build"] None = Some journal)
    by (vm_compute; reflexivity).
  exact (@csv_is_rectangular logged _ _ _ _ [tick 100; refused; bare] eq_refl Hnew).
Defined.

Lemma failed_tick_writes_NA_witness :
  w (@Update logged journal bare)
  = [["time"; "Goroutines"; "memstats.Alloc"; "Build"];
     ["12:00:15"; "N/A"; "N/A"; "N/A"]].
Proof.
  etransitivity.
  - apply (@failed_tick_writes_NA logged journal bare eq_refl).
    vm_compute. eexists; reflexivity.
  - reflexivity.
Defined.

Lemma first_resolution_witness :
  Cmdline (@Update plain monitor (tick 100)) = "/usr/local/bin/app -v"
  /\ Name (@Update plain monitor (tick 100)) = "app".
Proof.
  exact (proj1 (@first_resolution plain monitor (tick 100) eq_refl) app_cmd eq_refl).
Defined.

Lemma empty_cmdline_resolves_again_witness :
  Name (@Update plain monitor anonymous) = ""
  /\ Cmdline (@Update plain (@Update plain monitor anonymous) (tick 100))
     = "/usr/local/bin/app -v"
  /\ Name (@Update plain (@Update plain monitor anonymous) (tick 100)) = "app".
Proof.
  exact (@empty_cmdline_resolves_again plain monitor anonymous (tick 100) [""] app_cmd
           eq_refl eq_refl eq_refl eq_refl).
Defined.

Lemma guessValue_integers_witness :
  in_int64 2 = true /\ (jason.Arr [] = jason.Arr [] /\ 0%Z = 0%Z).
Proof.
  split.
  - apply (guessValue_integers (jason.Arr [int 1; int 2; int 3]) (VInt64 2)).
    vm_compute; reflexivity.
  - apply (guessValue_integers (jason.Arr []) (VInt 0)). reflexivity.
Defined.

Lemma UptimeCounter_in_range_witness :
  in_int64 (UptimeCounter (@Updates plain monitor [tick 100; refused; tick 40])) = true.
Proof.
  apply (@UptimeCounter_in_range plain monitor [tick 100; refused; tick 40]).
  reflexivity.
Defined.

Lemma guessValue_beyond_int64_witness :
  guessValue (int (2 ^ 64 - 1)) = Some (VFloat64 (float64_of_Z (2 ^ 64 - 1))).
Proof.
  apply (guessValue_beyond_int64 (2 ^ 64 - 1)); vm_compute; reflexivity.
Defined.

Example Max_after_failing_tick :
  @Value plain (@Update plain (@Update plain monitor (tick 100)) bare) "Goroutines" = "N/A"
  /\ @Service_Max plain (@Update plain (@Update plain monitor (tick 100)) bare) "Goroutines"
     = Some "8".
Proof. vm_compute. split; reflexivity. Qed.
